(** * MOTOFIX notifications service: the relay handlers and their contract

    A shallow embedding of [app/routers/notifications.py] and of the routing
    done by [app/main.py].  Python values are a small inductive type, the
    module namespace is a finite map from names to values, and every
    interaction with code outside the repository (the provider library, the
    process environment, the logger) is an explicit event answered by the
    outside world, so that a handler is a finite tree of such events. *)

From Stdlib Require Import ZArith String List.
From stdpp Require Import gmap strings list fin_maps pretty.

Local Open Scope string_scope.
Local Open Scope Z_scope.
#[local] Set Warnings "-register-all".

(** ** Python values *)

(** [VObj] stands for an object of a foreign library (a module, a service
    handle); the program only passes such objects around. *)
Inductive PyVal : Type :=
| VNone
| VBool (b : bool)
| VInt (n : Z)
| VStr (s : string)
| VList (l : list PyVal)
| VDict (d : gmap string PyVal)
| VObj (name : string).

(** A dict literal with string keys. *)
Abbreviation PyDict := (gmap string PyVal).

(** Truth value of an object, as [if] and [not] compute it. *)
Definition truthy (v : PyVal) : bool :=
  match v with
  | VNone => false
  | VBool b => b
  | VInt n => negb (n =? 0)
  | VStr s => negb (String.eqb s "")
  | VList l => match l with [] => false | _ => true end
  | VDict d => negb (bool_decide (d = ∅))
  | VObj _ => true
  end.

(** ** Exceptions *)

(** An instance of [Exception]: either some exception described by its
    class name and its [str()], or the framework's [HTTPException]. *)
Inductive PyException : Type :=
| Exc (cls : string) (msg : string)
| HTTPException (status_code : Z) (detail : string).

(** [str(e)].  [HTTPException.__str__] is "<status_code>: <detail>". *)
Definition str (e : PyException) : string :=
  match e with
  | Exc _ msg => msg
  | HTTPException c d => pretty c ++ ": " ++ d
  end.

Definition NameError (name : string) : PyException :=
  Exc "NameError" ("name '" ++ name ++ "' is not defined").

(** ** Events: what the module asks of the outside world *)

Inductive ExtOp : Type :=
| Import (module : string)
| EnvironGet (key : string)
| Getattr (obj : PyVal) (attr : string)
| CallMethod (obj : PyVal) (method : string)
             (args : list PyVal) (kwargs : list (string * PyVal))
| LogWarning (msg : string).

(** The world's answer to an event: a value, or a raised exception. *)
Inductive Answer : Type :=
| AVal (v : PyVal)
| ARaise (e : PyException).

(** A program is a finite tree of events. *)
Inductive prog (A : Type) : Type :=
| Ret (a : A)
| Vis (op : ExtOp) (k : Answer -> prog A).
Arguments Ret {A} a.
Arguments Vis {A} op k.

Fixpoint pbind {A B} (p : prog A) (f : A -> prog B) : prog B :=
  match p with
  | Ret a => f a
  | Vis op k => Vis op (fun ans => pbind (k ans) f)
  end.

(** ** The module namespace *)

(** [globals] is the module's [__dict__]; [stores] records, in order, the
    name of every assignment statement executed on it. *)
Record State : Type := mkState {
  globals : gmap string PyVal;
  stores : list string
}.

Definition empty_state : State := mkState ∅ [].

Inductive Completion (A : Type) : Type :=
| Normal (a : A)
| Raised (e : PyException).
Arguments Normal {A} a.
Arguments Raised {A} e.

(** Statements: state passing over the namespace, completion by value or
    by exception, events to the outside. *)
Definition M (A : Type) : Type := State -> prog (Completion A * State).

Definition ret {A} (a : A) : M A := fun st => Ret (Normal a, st).

Definition raise {A} (e : PyException) : M A := fun st => Ret (Raised e, st).

Definition bind {A B} (m : M A) (f : A -> M B) : M B :=
  fun st => pbind (m st) (fun r =>
    match r with
    | (Normal a, st') => f a st'
    | (Raised e, st') => Ret (Raised e, st')
    end).

#[global] Instance M_ret : MRet M := @ret.
#[global] Instance M_bind : MBind M := fun A B f m => bind m f.

(** [try: body  except Exception as e: handler e]. *)
Definition try_except {A} (body : M A) (handler : PyException -> M A) : M A :=
  fun st => pbind (body st) (fun r =>
    match r with
    | (Normal a, st') => Ret (Normal a, st')
    | (Raised e, st') => handler e st'
    end).

(** Reading a global name; an unbound name raises [NameError]. *)
Definition load_global (name : string) : M PyVal :=
  fun st => match globals st !! name with
            | Some v => Ret (Normal v, st)
            | None => Ret (Raised (NameError name), st)
            end.

(** The assignment statement [name = v] at module level. *)
Definition store_global (name : string) (v : PyVal) : M unit :=
  fun st => Ret (Normal tt, mkState (<[name := v]> (globals st)) (stores st ++ [name])).

(** An event whose answer is the value of the expression, or its exception. *)
Definition ext (op : ExtOp) : M PyVal :=
  fun st => Vis op (fun ans =>
    match ans with
    | AVal v => Ret (Normal v, st)
    | ARaise e => Ret (Raised e, st)
    end).

(** ** app/routers/notifications.py *)

(** [os.getenv(key, default)]. *)
Definition os_getenv (key : string) (default : PyVal) : M PyVal :=
  v ← ext (EnvironGet key);
  ret (match v with VNone => default | _ => v end).

(** The module-level [try]/[except] that sets up the provider. *)
Definition module_init : M unit :=
  try_except
    (africastalking ← ext (Import "africastalking");
     store_global "africastalking" africastalking;;
     u ← os_getenv "AT_USERNAME" (VStr "sandbox");
     store_global "AT_USERNAME" u;;
     k ← os_getenv "AT_API_KEY" VNone;
     store_global "AT_API_KEY" k;;
     at_mod ← load_global "africastalking";
     at_username ← load_global "AT_USERNAME";
     at_api_key ← load_global "AT_API_KEY";
     ext (CallMethod at_mod "initialize" [at_username; at_api_key] []);;
     at_mod ← load_global "africastalking";
     s ← ext (Getattr at_mod "SMS");
     store_global "sms" s;;
     at_mod ← load_global "africastalking";
     w ← ext (Getattr at_mod "WhatsApp");
     store_global "whatsapp" w;;
     store_global "AT_READY" (VBool true))
    (fun e =>
       ext (LogWarning ("Africa's Talking not available: " ++ str e));;
       store_global "AT_READY" (VBool false)).

Definition fake_result (to message note : string) : PyDict :=
  <["status" := VStr "fake"]> (<["to" := VStr to]>
    (<["message" := VStr message]> (<["note" := VStr note]> ∅))).

Definition sent_result (provider : string) (response : PyVal) : PyDict :=
  <["status" := VStr "sent"]> (<["provider" := VStr provider]>
    (<["response" := response]> ∅)).

(** The handlers.  [HTTPException], [str] and [Exception] stand for the
    framework class and the builtins these names are bound to; a rebinding
    of those names in the module is not modelled. *)
Definition send_sms (to message : string) : M PyDict :=
  at_ready ← load_global "AT_READY";
  if negb (truthy at_ready) then
    ret (fake_result to message "AT not configured")
  else
    try_except
      (sms ← load_global "sms";
       response ← ext (CallMethod sms "send" [VStr message; VList [VStr to]] []);
       ret (sent_result "SMS" response))
      (fun e => raise (HTTPException 500 (str e))).

Definition send_whatsapp (to message : string) : M PyDict :=
  at_ready ← load_global "AT_READY";
  if negb (truthy at_ready) then
    ret (fake_result to message "WhatsApp test mode")
  else
    try_except
      (whatsapp ← load_global "whatsapp";
       response ← ext (CallMethod whatsapp "send" []
                          [("message", VStr message); ("recipients", VList [VStr to])]);
       ret (sent_result "WhatsApp" response))
      (fun e => raise (HTTPException 500 (str e))).

(** ** Running a program against the outside world *)

(** The world answers each event from its own state [W]; a provider that
    fails now and then, or remembers what it was sent, is such a world. *)
Definition Oracle (W : Type) : Type := W -> ExtOp -> Answer * W.

(** [run] feeds the world's answers to the program and records the events
    with their answers, in order. *)
Fixpoint run {W A} (o : Oracle W) (p : prog A) (w : W)
  : A * W * list (ExtOp * Answer) :=
  match p with
  | Ret a => (a, w, [])
  | Vis op k =>
      let '(ans, w1) := o w op in
      let '(a, w2, tr) := run o (k ans) w1 in
      (a, w2, (op, ans) :: tr)
  end.

(** Events answered by a value rather than an exception. *)
Definition is_value (ev : ExtOp * Answer) : bool :=
  match ev.2 with
  | AVal _ => true
  | ARaise _ => false
  end.

(** ** The HTTP surface: app/main.py and the route decorators *)

(** A request as the framework hands it to the routes: the query string as
    decoded key/value pairs, and the JSON body if there is one. *)
Record Request : Type := mkRequest {
  method : string;
  path : string;
  query : list (string * string);
  json : option PyVal
}.

Inductive Response : Type :=
| JSONResponse (status_code : Z) (content : PyVal)
| RequestValidationError (missing : list string)
| InternalServerError.

Definition status_of (r : Response) : Z :=
  match r with
  | JSONResponse c _ => c
  | RequestValidationError _ => 422
  | InternalServerError => 500
  end.

(** The value of a query parameter; of a repeated key the last one counts. *)
Fixpoint query_get (key : string) (q : list (string * string)) : option string :=
  match q with
  | [] => None
  | (k, v) :: q' =>
      match query_get key q' with
      | Some v' => Some v'
      | None => if String.eqb k key then Some v else None
      end
  end.

(** Both handlers are declared [(to: str, message: str)]: two required
    parameters of a plain type with no body model, which the framework
    reads from the query string.  The result is the pair of arguments, or
    the names of the parameters that are missing. *)
Definition bind_params (req : Request) : list string + string * string :=
  match query_get "to" (query req), query_get "message" (query req) with
  | Some to, Some message => inr (to, message)
  | Some _, None => inl ["message"]
  | None, Some _ => inl ["to"]
  | None, None => inl ["to"; "message"]
  end.

(** What the framework makes of the handler's completion.  A returned dict
    is taken to be one the JSON encoder accepts, as the provider's parsed
    responses are; a value the encoder rejects would end in a bare 500
    instead of the 200. *)
Definition respond (c : Completion PyDict) : Response :=
  match c with
  | Normal d => JSONResponse 200 (VDict d)
  | Raised (HTTPException code detail) =>
      JSONResponse code (VDict (<["detail" := VStr detail]> ∅))
  | Raised (Exc _ _) => InternalServerError
  end.

Definition endpoint (handler : string -> string -> M PyDict) (req : Request)
  : State -> prog (Response * State) :=
  fun st =>
    match bind_params req with
    | inl missing => Ret (RequestValidationError missing, st)
    | inr (to, message) =>
        pbind (handler to message st) (fun r => Ret (respond r.1, r.2))
    end.

(** [router = APIRouter(prefix="/notify")] with its two [post] routes,
    included by [app]. *)
Definition router_prefix : string := "/notify".

Definition routes : list (string * string * (string -> string -> M PyDict)) :=
  [ ("POST", router_prefix ++ "/sms", send_sms);
    ("POST", router_prefix ++ "/whatsapp", send_whatsapp) ].

(** How the framework matches a request path against a route without
    parameters: [re.match] of the pattern "^<route path>$", whose [$] accepts
    the end of the path and also one newline before it. *)
Definition path_matches (route_path path : string) : bool :=
  String.eqb route_path path || String.eqb (route_path ++ String (Ascii.ascii_of_nat 10) "") path.

Definition find_route (req : Request) : option (string -> string -> M PyDict) :=
  (fun r => r.2) <$>
  List.find (fun r => String.eqb r.1.1 (method req) && path_matches r.1.2 (path req)) routes.

(** A request on one of the two routes; [None] when no route of this
    module matches and the framework answers by itself. *)
Definition app (req : Request) : option (State -> prog (Response * State)) :=
  (fun h => endpoint h req) <$> find_route req.

(** Requests served one after the other by one process. *)
Fixpoint serve {W} (o : Oracle W) (reqs : list Request) (st : State) (w : W)
  : list (option Response) * State * W :=
  match reqs with
  | [] => ([], st, w)
  | req :: reqs' =>
      match app req with
      | None =>
          let '(rs, st', w') := serve o reqs' st w in (None :: rs, st', w')
      | Some p =>
          let '(r, st1, w1, _) := run o (p st) w in
          let '(rs, st', w') := serve o reqs' st1 w1 in
          (Some r :: rs, st', w')
      end
  end.

(** A direct call of one of the two handlers. *)
Inductive HandlerCall : Type :=
| SendSms (to message : string)
| SendWhatsapp (to message : string).

Definition call_handler (c : HandlerCall) : M PyDict :=
  match c with
  | SendSms to message => send_sms to message
  | SendWhatsapp to message => send_whatsapp to message
  end.

Fixpoint run_calls {W} (o : Oracle W) (cs : list HandlerCall) (st : State) (w : W)
  : list (Completion PyDict) * State * W :=
  match cs with
  | [] => ([], st, w)
  | c :: cs' =>
      let '(r, st1, w1, _) := run o (call_handler c st) w in
      let '(rs, st', w') := run_calls o cs' st1 w1 in
      (r :: rs, st', w')
  end.

(** ** Sample worlds *)

(** A world in which the provider library is installed and every call
    succeeds; the answer to [send] echoes a ticket. *)
Definition sandbox_world : Oracle unit :=
  fun w op =>
    match op with
    | Import m => (AVal (VObj m), w)
    | EnvironGet _ => (AVal VNone, w)
    | Getattr _ attr => (AVal (VObj attr), w)
    | CallMethod _ "send" _ _ => (AVal (VStr "queued"), w)
    | CallMethod _ _ _ _ => (AVal VNone, w)
    | LogWarning _ => (AVal VNone, w)
    end.

(** A world without the provider library: the import fails. *)
Definition no_library_world : Oracle unit :=
  fun w op =>
    match op with
    | Import m => (ARaise (Exc "ModuleNotFoundError" ("No module named '" ++ m ++ "'")), w)
    | _ => (AVal VNone, w)
    end.

(** A world whose library loads but whose [send] always raises "boom". *)
Definition boom_world : Oracle unit :=
  fun w op =>
    match op with
    | CallMethod _ "send" _ _ => (ARaise (Exc "Exception" "boom"), w)
    | _ => sandbox_world w op
    end.

(** A world in which the SMS service is down and WhatsApp works. *)
Definition sms_down_world : Oracle unit :=
  fun w op =>
    match op with
    | CallMethod (VObj "SMS") "send" _ _ => (ARaise (Exc "Exception" "SMS gateway down"), w)
    | _ => sandbox_world w op
    end.

(** A world whose library loads and initializes but has no [WhatsApp]
    attribute. *)
Definition no_whatsapp_world : Oracle unit :=
  fun w op =>
    match op with
    | Getattr _ "WhatsApp" =>
        (ARaise (Exc "AttributeError"
                   "module 'africastalking' has no attribute 'WhatsApp'"), w)
    | _ => sandbox_world w op
    end.

(** A world without the provider library in which logging fails too. *)
Definition broken_logging_world : Oracle unit :=
  fun w op =>
    match op with
    | LogWarning _ => (ARaise (Exc "OSError" "log stream closed"), w)
    | _ => no_library_world w op
    end.

(** The namespace after start-up in a world. *)
Definition startup {W} (o : Oracle W) (w : W) : State :=
  (run o (module_init empty_state) w).1.1.2.

Definition ready_state : State := startup sandbox_world tt.
Definition not_ready_state : State := startup no_library_world tt.

(** ** Vocabulary of the properties *)

(** [contains sub s]: [sub] occurs in [s]. *)
Definition contains (sub s : string) : Prop :=
  exists pre post, s = pre ++ sub ++ post.

Ltac unfold_py :=
  unfold mbind, M_bind, mret, M_ret, bind, try_except, load_global, ext, ret, raise; simpl.

Ltac unfold_py_in H :=
  unfold mbind, M_bind, mret, M_ret, bind, try_except, load_global, ext, ret, raise in H;
  simpl in H.

(** The calls each channel makes on its service handle. *)
Definition sms_call (sms : PyVal) (to message : string) : ExtOp :=
  CallMethod sms "send" [VStr message; VList [VStr to]] [].

Definition whatsapp_call (whatsapp : PyVal) (to message : string) : ExtOp :=
  CallMethod whatsapp "send" []
    [("message", VStr message); ("recipients", VList [VStr to])].

(** The call the WhatsApp channel would make if it passed the message and a
    bare recipient. *)
Definition whatsapp_bare_call (whatsapp : PyVal) (to message : string) : ExtOp :=
  CallMethod whatsapp "send" [VStr message; VStr to] [].

Ltac ready_step Hready Hname :=
  unfold_py; rewrite Hready; simpl; rewrite Hname; simpl.

(** The outcome of a handler's one provider call. *)
Definition sent_or_500 (provider : string) (ans : Answer) : Completion PyDict :=
  match ans with
  | AVal r => Normal (sent_result provider r)
  | ARaise e => Raised (HTTPException 500 (str e))
  end.

(** A handler completion that is the HTTP error for the provider error
    [e]: an [HTTPException] of status 500 whose detail contains [str(e)],
    answered by the framework with status 500 and that detail. *)
Definition fails_with_500 (c : Completion PyDict) (e : PyException) : Prop :=
  exists detail,
    c = Raised (HTTPException 500 detail)
    /\ contains (str e) detail
    /\ respond c = JSONResponse 500 (VDict (<["detail" := VStr detail]> ∅))
    /\ status_of (respond c) = 500
    /\ status_of (respond c) <> 200.

(** What a handler can do in ready mode: complete with the Sent result of
    its channel or raise the 500 error, never produce a "fake" status, and
    reach the outside world at most once. *)
Definition ready_mode_outcome (provider : string) (c : Completion PyDict)
           (tr : list (ExtOp * Answer)) : Prop :=
  ((exists response, c = Normal (sent_result provider response))
   \/ (exists detail, c = Raised (HTTPException 500 detail)))
  /\ (forall d, c = Normal d -> d !! "status" <> Some (VStr "fake"))
  /\ (length tr <= 1)%nat.

(** The key sets of the two result shapes. *)
Definition fake_keys : gset string := {[ "status"; "to"; "message"; "note" ]}.
Definition sent_keys : gset string := {[ "status"; "provider"; "response" ]}.

(** A result dict whose status is "fake" or "sent" and whose key set is the
    one its status calls for. *)
Definition well_shaped (d : PyDict) : Prop :=
  (d !! "status" = Some (VStr "fake") \/ d !! "status" = Some (VStr "sent"))
  /\ (d !! "status" = Some (VStr "fake") -> dom d = fake_keys)
  /\ (d !! "status" = Some (VStr "sent") -> dom d = sent_keys).

Ltac answer o :=
  match goal with
  | |- context [o ?w ?op] => destruct (o w op) as [[?|?] ?]
  end; simpl.

Ltac startup_step o :=
  first [ rewrite lookup_insert_eq; simpl
        | rewrite lookup_insert_ne by done; simpl
        | answer o ].

(** A provider whose answer to a call does not depend on what it was asked
    before. *)
Definition history_independent {W} (o : Oracle W) : Prop :=
  forall (w1 w2 : W) (op : ExtOp), (o w1 op).1 = (o w2 op).1.

(** Requests on the two routes with their fields in the query string. *)
Definition sms_request : Request :=
  mkRequest "POST" "/notify/sms"
    [("to", "+256758969973"); ("message", "Job alert")] None.

Definition whatsapp_request : Request :=
  mkRequest "POST" "/notify/whatsapp"
    [("to", "+256758969973"); ("message", "Job alert")] None.

(** The reading of the specification: the fields are those of a JSON body
    that is an object with string members [to] and [message]. *)
Definition SendRequest_of_json (body : option PyVal) : option (string * string) :=
  match body with
  | Some (VDict d) =>
      match d !! "to", d !! "message" with
      | Some (VStr to), Some (VStr message) => Some (to, message)
      | _, _ => None
      end
  | _ => None
  end.

(** Scenario 1: the fields in a JSON body, nothing in the query string. *)
Definition body_request : Request :=
  mkRequest "POST" "/notify/sms" []
    (Some (VDict (<["to" := VStr "+256758969973"]>
                    (<["message" := VStr "Job alert"]> ∅)))).

(** ** Vocabulary of the further properties *)

(** The events and answers of start-up in a world. *)
Definition startup_trace {W} (o : Oracle W) (w : W) : list (ExtOp * Answer) :=
  (run o (module_init empty_state) w).2.

(** The condition of the specification for a true flag: the import of the
    provider library and its [initialize] both succeeded. *)
Definition import_and_initialize_succeed (tr : list (ExtOp * Answer)) : bool :=
  existsb (fun ev => match ev with
                     | (Import "africastalking", AVal _) => true
                     | _ => false
                     end) tr
  && existsb (fun ev => match ev with
                        | (CallMethod _ "initialize" _ _, AVal _) => true
                        | _ => false
                        end) tr.

(** Events other than a [logging.warning] that raised. *)
Definition log_returned (ev : ExtOp * Answer) : bool :=
  match ev with
  | (LogWarning _, ARaise _) => false
  | _ => true
  end.

(** Calls of a method named [send]. *)
Definition is_send_call (op : ExtOp) : bool :=
  match op with
  | CallMethod _ m _ _ => String.eqb m "send"
  | _ => false
  end.

(** The first exception raised in a run, if any. *)
Fixpoint first_raise (tr : list (ExtOp * Answer)) : option PyException :=
  match tr with
  | [] => None
  | (_, ARaise e) :: _ => Some e
  | (_, AVal _) :: tr' => first_raise tr'
  end.

(** The messages handed to [logging.warning] in a run. *)
Fixpoint logged_warnings (tr : list (ExtOp * Answer)) : list string :=
  match tr with
  | [] => []
  | (LogWarning msg, _) :: tr' => msg :: logged_warnings tr'
  | _ :: tr' => logged_warnings tr'
  end.

(** What [monkeypatch.setattr(module, name, v, raising=False)] does to the
    module: it binds the attribute, without any statement of the module
    being run. *)
Definition monkeypatch_setattr (name : string) (v : PyVal) (st : State) : State :=
  mkState (<[name := v]> (globals st)) (stores st).

Ltac run_startup o :=
  unfold startup_trace, startup, module_init, os_getenv, store_global;
  unfold_py; repeat (startup_step o).

(** ** tests/test_notifications.py *)

Module Tests.

(** What [find_route] looks at in a route object: its [path] and
    [methods] attributes, either of which may be absent. *)
Record Route : Type := mkRoute {
  route_path : option string;
  route_methods : option (list string)
}.

(** The condition of the [if] in [find_route]. *)
Definition route_matches (path method : string) (route : Route) : bool :=
  match route_path route, route_methods route with
  | Some p, Some ms =>
      String.eqb p path
      && match ms with [] => false | _ => true end
      && existsb (String.eqb method) ms
  | _, _ => false
  end.

(** The route a test asks for: its path is [path] and [method] is among
    its methods. *)
Definition wanted (path method : string) (route : Route) : Prop :=
  route_path route = Some path
  /\ exists ms, route_methods route = Some ms /\ In method ms.

Fixpoint find_route (routes : list Route) (path method : string) : option Route :=
  match routes with
  | [] => None
  | route :: routes' =>
      if route_matches path method route then Some route
      else find_route routes' path method
  end.

(** The route objects of the two handlers, as [app.routes] lists them. *)
Definition module_routes : list Route :=
  map (fun r => mkRoute (Some r.1.2) (Some [r.1.1])) routes.

(** [safe_post(path, json_payload)]: a POST of a JSON body to [path]. *)
Definition safe_post (path : string) (json_payload : PyVal) : Request :=
  mkRequest "POST" path [] (Some json_payload).

(** [client.post(path)]: a POST without body. *)
Definition post_nothing (path : string) : Request :=
  mkRequest "POST" path [] None.

Definition DEFAULT_PAYLOAD : PyVal :=
  VDict (<["to" := VStr "+256758969973"]>
           (<["message" := VStr "New fuel job in Makindye – UGX 15,000"]> ∅)).

Inductive Verdict : Type := Passed | Skipped | Failed.

(** The response the test client gets; [None] if no route matches. *)
Definition client_post {W} (o : Oracle W) (st : State) (w : W) (req : Request)
  : option Response :=
  (fun p => (run o (p st) w).1.1.1) <$> app req.

(** The body of a 200 response as a dict, for [response.json()]. *)
Definition response_json (r : Response) : option PyDict :=
  match r with
  | JSONResponse _ (VDict d) => Some d
  | _ => None
  end.

(** [data.get(key) == s] for a string [s]. *)
Definition equals_str (v : option PyVal) (s : string) : bool :=
  match v with
  | Some (VStr s') => String.eqb s' s
  | _ => false
  end.

(** [test_sms_endpoint_accepts_or_validates_payload] and its WhatsApp
    twin, on the response to the default payload. *)
Definition accepts_or_validates (found : option Route) (response : option Response)
  : Verdict :=
  match found, response with
  | Some _, Some r =>
      if status_of r =? 200 then
        match response_json r with
        | Some data =>
            if equals_str (data !! "to") "+256758969973"
               && bool_decide (is_Some (data !! "message"))
            then Passed else Failed
        | None => Failed
        end
      else if status_of r =? 422 then Passed else Failed
  | _, _ => Failed
  end.

(** [test_sms_handles_send_exception] and its WhatsApp twin, on the
    response obtained after the patch of the module's [send]. *)
Definition handles_send_exception (found : option Route) (response : option Response)
  : Verdict :=
  match found, response with
  | Some _, Some r =>
      if status_of r =? 422 then Skipped
      else if status_of r =? 500 then Passed else Failed
  | _, _ => Failed
  end.

(** [test_missing_parameters_produce_422] and
    [test_non_string_parameters_produce_422], on the two responses. *)
Definition both_422 (r1 r2 : option Response) : Verdict :=
  match r1, r2 with
  | Some a, Some b =>
      if (status_of a =? 422) && (status_of b =? 422) then Passed else Failed
  | _, _ => Failed
  end.

(** The patched module state of the two exception tests. *)
Definition patched (st : State) : State :=
  monkeypatch_setattr "send" (VObj "fake_send") st.

Definition non_string_payload : PyVal :=
  VDict (<["to" := VInt 256758969973]>
           (<["message" := VList [VStr "not"; VStr "a"; VStr "string"]]> ∅)).

End Tests.

(** ** Properties *)

Lemma contains_refl s : contains s s.
Proof.
  exists "", "". induction s as [|c s IH]; [reflexivity|].
  change (String c s = String c ("" ++ s ++ "")). by f_equal.
Qed.

Example startup_ready : globals ready_state !! "AT_READY" = Some (VBool true).
Proof. vm_compute. reflexivity. Qed.

Example startup_not_ready : globals not_ready_state !! "AT_READY" = Some (VBool false).
Proof. vm_compute. reflexivity. Qed.

(** C1. When [AT_READY] is false, [send_sms] returns the dict
    [{status: "fake", to, message, note: "AT not configured"}] and
    [send_whatsapp] the same with note "WhatsApp test mode"; the request's
    [to] and [message] are echoed, and the handler is a bare return: it
    contains no event, so the provider is never called. *)
Theorem fake_mode_echo (st : State) (to message : string) :
  globals st !! "AT_READY" = Some (VBool false) ->
  send_sms to message st
    = Ret (Normal (fake_result to message "AT not configured"), st)
  /\ send_whatsapp to message st
    = Ret (Normal (fake_result to message "WhatsApp test mode"), st)
  /\ (forall note,
        fake_result to message note !! "status" = Some (VStr "fake")
        /\ fake_result to message note !! "to" = Some (VStr to)
        /\ fake_result to message note !! "message" = Some (VStr message)
        /\ fake_result to message note !! "note" = Some (VStr note)).
Proof.
  intros Hready. repeat split.
  - unfold send_sms. unfold_py. rewrite Hready. reflexivity.
  - unfold send_whatsapp. unfold_py. rewrite Hready. reflexivity.
Qed.

Lemma fake_mode_echo_witness :
  globals not_ready_state !! "AT_READY" = Some (VBool false)
  /\ send_sms "+256758969973" "Job alert" not_ready_state
      = Ret (Normal (fake_result "+256758969973" "Job alert" "AT not configured"),
             not_ready_state)
  /\ send_whatsapp "+256758969973" "Job alert" not_ready_state
      = Ret (Normal (fake_result "+256758969973" "Job alert" "WhatsApp test mode"),
             not_ready_state).
Proof.
  assert (H : globals not_ready_state !! "AT_READY" = Some (VBool false))
    by (vm_compute; reflexivity).
  split; [exact H|].
  destruct (fake_mode_echo not_ready_state "+256758969973" "Job alert" H) as (Hs & Hw & _).
  split; [exact Hs | exact Hw].
Defined.

Lemma run_send_sms_ready {W} (o : Oracle W) (w : W) (st : State)
      (to message : string) (sms : PyVal) :
  globals st !! "AT_READY" = Some (VBool true) ->
  globals st !! "sms" = Some sms ->
  run o (send_sms to message st) w
  = (sent_or_500 "SMS" (o w (sms_call sms to message)).1, st,
     (o w (sms_call sms to message)).2,
     [(sms_call sms to message, (o w (sms_call sms to message)).1)]).
Proof.
  intros Hready Hsms. unfold send_sms, sms_call. ready_step Hready Hsms.
  by destruct (o w _) as [[r|e] w1].
Qed.

Lemma run_send_whatsapp_ready {W} (o : Oracle W) (w : W) (st : State)
      (to message : string) (whatsapp : PyVal) :
  globals st !! "AT_READY" = Some (VBool true) ->
  globals st !! "whatsapp" = Some whatsapp ->
  run o (send_whatsapp to message st) w
  = (sent_or_500 "WhatsApp" (o w (whatsapp_call whatsapp to message)).1, st,
     (o w (whatsapp_call whatsapp to message)).2,
     [(whatsapp_call whatsapp to message, (o w (whatsapp_call whatsapp to message)).1)]).
Proof.
  intros Hready Hwa. unfold send_whatsapp, whatsapp_call. ready_step Hready Hwa.
  by destruct (o w _) as [[r|e] w1].
Qed.

(** C2, as stated, fails for WhatsApp: after a successful start-up the
    WhatsApp handler calls [send] with keyword arguments [message] and
    [recipients], the recipient inside a one-element list, and not with
    the message and a bare recipient. *)
Lemma whatsapp_bare_recipient_refuted :
  globals ready_state !! "AT_READY" = Some (VBool true)
  /\ map fst (run sandbox_world
                (send_whatsapp "+256758969973" "Job alert" ready_state) tt).2
     = [CallMethod (VObj "WhatsApp") "send" []
          [("message", VStr "Job alert");
           ("recipients", VList [VStr "+256758969973"])]]
  /\ map fst (run sandbox_world
                (send_whatsapp "+256758969973" "Job alert" ready_state) tt).2
     <> [whatsapp_bare_call (VObj "WhatsApp") "+256758969973" "Job alert"].
Proof.
  split; [vm_compute; reflexivity|].
  split; [vm_compute; reflexivity|].
  vm_compute. discriminate.
Qed.

(** C2, amended.  In ready mode the SMS handler makes exactly one provider
    call, [sms.send(message, [to])], with positional arguments; the WhatsApp
    handler makes exactly one, [whatsapp.send(message=message,
    recipients=[to])], with keyword arguments.  Both wrap the recipient in a
    one-element list; the calls differ in how the arguments are passed. *)
Theorem provider_call_arguments {W} (o : Oracle W) (w : W) (st : State)
        (to message : string) (sms whatsapp : PyVal) :
  globals st !! "AT_READY" = Some (VBool true) ->
  globals st !! "sms" = Some sms ->
  globals st !! "whatsapp" = Some whatsapp ->
  map fst (run o (send_sms to message st) w).2
    = [CallMethod sms "send" [VStr message; VList [VStr to]] []]
  /\ map fst (run o (send_whatsapp to message st) w).2
    = [CallMethod whatsapp "send" []
         [("message", VStr message); ("recipients", VList [VStr to])]]
  /\ (forall h, sms_call h to message <> whatsapp_call h to message).
Proof.
  intros Hready Hsms Hwa. repeat split.
  - by rewrite (run_send_sms_ready o w st to message sms Hready Hsms).
  - by rewrite (run_send_whatsapp_ready o w st to message whatsapp Hready Hwa).
  - intros h. unfold sms_call, whatsapp_call. discriminate.
Qed.

Lemma provider_call_arguments_witness :
  map fst (run sandbox_world (send_sms "+256758969973" "Job alert" ready_state) tt).2
    = [CallMethod (VObj "SMS") "send"
         [VStr "Job alert"; VList [VStr "+256758969973"]] []]
  /\ map fst (run sandbox_world
                (send_whatsapp "+256758969973" "Job alert" ready_state) tt).2
    = [CallMethod (VObj "WhatsApp") "send" []
         [("message", VStr "Job alert");
          ("recipients", VList [VStr "+256758969973"])]].
Proof.
  assert (Hr : globals ready_state !! "AT_READY" = Some (VBool true))
    by (vm_compute; reflexivity).
  assert (Hs : globals ready_state !! "sms" = Some (VObj "SMS"))
    by (vm_compute; reflexivity).
  assert (Hw : globals ready_state !! "whatsapp" = Some (VObj "WhatsApp"))
    by (vm_compute; reflexivity).
  destruct (provider_call_arguments sandbox_world tt ready_state
              "+256758969973" "Job alert" _ _ Hr Hs Hw) as (H1 & H2 & _).
  split; [exact H1 | exact H2].
Defined.

Lemma raised_500_fails (e : PyException) :
  fails_with_500 (Raised (HTTPException 500 (str e))) e.
Proof.
  exists (str e). repeat split; [apply contains_refl | simpl; lia].
Qed.

(** C4. In ready mode, when the provider's [send] raises [e], each handler
    raises [HTTPException(500, detail=str(e))]: the response has status 500,
    never 200, and its detail contains the error's description. *)
Theorem provider_error_is_500 {W} (o : Oracle W) (w w' : W) (st : State)
        (to message : string) (sms whatsapp : PyVal) (e : PyException) :
  globals st !! "AT_READY" = Some (VBool true) ->
  globals st !! "sms" = Some sms ->
  globals st !! "whatsapp" = Some whatsapp ->
  (o w (CallMethod sms "send" [VStr message; VList [VStr to]] []) = (ARaise e, w') ->
   (run o (send_sms to message st) w).1.1.1 = Raised (HTTPException 500 (str e))
   /\ fails_with_500 (run o (send_sms to message st) w).1.1.1 e)
  /\ (o w (CallMethod whatsapp "send" []
             [("message", VStr message); ("recipients", VList [VStr to])])
        = (ARaise e, w') ->
      (run o (send_whatsapp to message st) w).1.1.1 = Raised (HTTPException 500 (str e))
      /\ fails_with_500 (run o (send_whatsapp to message st) w).1.1.1 e).
Proof.
  intros Hready Hsms Hwa. split; intros Ho.
  - rewrite (run_send_sms_ready o w st to message sms Hready Hsms).
    unfold sms_call. rewrite Ho. simpl. split; [done | apply raised_500_fails].
  - rewrite (run_send_whatsapp_ready o w st to message whatsapp Hready Hwa).
    unfold whatsapp_call. rewrite Ho. simpl. split; [done | apply raised_500_fails].
Qed.

Lemma provider_error_is_500_witness :
  (run boom_world (send_sms "+256758969973" "Job alert" ready_state) tt).1.1.1
    = Raised (HTTPException 500 "boom")
  /\ (run boom_world (send_whatsapp "+256758969973" "Job alert" ready_state) tt).1.1.1
    = Raised (HTTPException 500 "boom").
Proof.
  assert (Hr : globals ready_state !! "AT_READY" = Some (VBool true))
    by (vm_compute; reflexivity).
  assert (Hs : globals ready_state !! "sms" = Some (VObj "SMS"))
    by (vm_compute; reflexivity).
  assert (Hw : globals ready_state !! "whatsapp" = Some (VObj "WhatsApp"))
    by (vm_compute; reflexivity).
  destruct (provider_error_is_500 boom_world tt tt ready_state
              "+256758969973" "Job alert" _ _ (Exc "Exception" "boom") Hr Hs Hw)
    as (H1 & H2).
  split; [apply H1 | apply H2]; reflexivity.
Defined.

(** C5. In ready mode, when the provider's [send] returns [r], [send_sms]
    returns [{status: "sent", provider: "SMS", response: r}] and
    [send_whatsapp] returns [{status: "sent", provider: "WhatsApp",
    response: r}], with [r] as the provider gave it. *)
Theorem provider_response_forwarded {W} (o : Oracle W) (w w' : W) (st : State)
        (to message : string) (sms whatsapp : PyVal) (r : PyVal) :
  globals st !! "AT_READY" = Some (VBool true) ->
  globals st !! "sms" = Some sms ->
  globals st !! "whatsapp" = Some whatsapp ->
  (o w (CallMethod sms "send" [VStr message; VList [VStr to]] []) = (AVal r, w') ->
   (run o (send_sms to message st) w).1.1.1
   = Normal (<["status" := VStr "sent"]> (<["provider" := VStr "SMS"]>
               (<["response" := r]> ∅))))
  /\ (o w (CallMethod whatsapp "send" []
             [("message", VStr message); ("recipients", VList [VStr to])])
        = (AVal r, w') ->
      (run o (send_whatsapp to message st) w).1.1.1
      = Normal (<["status" := VStr "sent"]> (<["provider" := VStr "WhatsApp"]>
                  (<["response" := r]> ∅))))
  /\ (forall provider,
        sent_result provider r !! "status" = Some (VStr "sent")
        /\ sent_result provider r !! "provider" = Some (VStr provider)
        /\ sent_result provider r !! "response" = Some r).
Proof.
  intros Hready Hsms Hwa. split; [|split].
  - intros Ho. rewrite (run_send_sms_ready o w st to message sms Hready Hsms).
    unfold sms_call. by rewrite Ho.
  - intros Ho. rewrite (run_send_whatsapp_ready o w st to message whatsapp Hready Hwa).
    unfold whatsapp_call. by rewrite Ho.
  - intros provider. repeat split.
Qed.

Lemma provider_response_forwarded_witness :
  (run sandbox_world (send_sms "+256758969973" "Job alert" ready_state) tt).1.1.1
    = Normal (sent_result "SMS" (VStr "queued"))
  /\ (run sandbox_world (send_whatsapp "+256758969973" "Job alert" ready_state) tt).1.1.1
    = Normal (sent_result "WhatsApp" (VStr "queued")).
Proof.
  assert (Hr : globals ready_state !! "AT_READY" = Some (VBool true))
    by (vm_compute; reflexivity).
  assert (Hs : globals ready_state !! "sms" = Some (VObj "SMS"))
    by (vm_compute; reflexivity).
  assert (Hw : globals ready_state !! "whatsapp" = Some (VObj "WhatsApp"))
    by (vm_compute; reflexivity).
  destruct (provider_response_forwarded sandbox_world tt tt ready_state
              "+256758969973" "Job alert" _ _ (VStr "queued") Hr Hs Hw)
    as (H1 & H2 & _).
  split; [apply H1 | apply H2]; reflexivity.
Defined.

(** C6. In ready mode neither handler returns a result of status "fake":
    whatever the provider answers, the outcome is the Sent result or the
    500 error, and the run holds at most one provider call, so a failed
    call is not tried again. *)
Theorem ready_mode_never_fake {W} (o : Oracle W) (w : W) (st : State)
        (to message : string) :
  globals st !! "AT_READY" = Some (VBool true) ->
  ready_mode_outcome "SMS"
    (run o (send_sms to message st) w).1.1.1 (run o (send_sms to message st) w).2
  /\ ready_mode_outcome "WhatsApp"
    (run o (send_whatsapp to message st) w).1.1.1
    (run o (send_whatsapp to message st) w).2.
Proof.
  intros Hready. unfold ready_mode_outcome. split.
  - unfold send_sms. unfold_py. rewrite Hready. simpl.
    destruct (globals st !! "sms") as [sms|]; simpl.
    + destruct (o w _) as [[r|e] w1]; simpl.
      * split; [left; by eexists|]. split; [|lia]. by intros d [= <-].
      * split; [right; by eexists|]. split; [|lia]. by intros d [=].
    + split; [right; by eexists|]. split; [|lia]. by intros d [=].
  - unfold send_whatsapp. unfold_py. rewrite Hready. simpl.
    destruct (globals st !! "whatsapp") as [wa|]; simpl.
    + destruct (o w _) as [[r|e] w1]; simpl.
      * split; [left; by eexists|]. split; [|lia]. by intros d [= <-].
      * split; [right; by eexists|]. split; [|lia]. by intros d [=].
    + split; [right; by eexists|]. split; [|lia]. by intros d [=].
Qed.

Lemma ready_mode_never_fake_witness :
  ready_mode_outcome "SMS"
    (run boom_world (send_sms "+256758969973" "Job alert" ready_state) tt).1.1.1
    (run boom_world (send_sms "+256758969973" "Job alert" ready_state) tt).2
  /\ ready_mode_outcome "WhatsApp"
    (run boom_world (send_whatsapp "+256758969973" "Job alert" ready_state) tt).1.1.1
    (run boom_world (send_whatsapp "+256758969973" "Job alert" ready_state) tt).2.
Proof.
  apply (ready_mode_never_fake boom_world tt ready_state "+256758969973" "Job alert").
  vm_compute. reflexivity.
Defined.

(** C9. When [AT_READY] is false the handlers are total on strings: for
    every [to] and [message], the empty string included, and against every
    world, the run completes normally with the Fake result
    [{status: "fake", to, message, note}] of its channel, records no event
    at all and leaves the namespace and the world as they were. *)
Theorem fake_mode_total {W} (o : Oracle W) (w : W) (st : State) (to message : string) :
  globals st !! "AT_READY" = Some (VBool false) ->
  run o (send_sms to message st) w
    = (Normal (<["status" := VStr "fake"]> (<["to" := VStr to]>
                 (<["message" := VStr message]>
                    (<["note" := VStr "AT not configured"]> ∅)))), st, w, [])
  /\ run o (send_whatsapp to message st) w
    = (Normal (<["status" := VStr "fake"]> (<["to" := VStr to]>
                 (<["message" := VStr message]>
                    (<["note" := VStr "WhatsApp test mode"]> ∅)))), st, w, []).
Proof.
  intros Hready. split.
  - unfold send_sms. unfold_py. by rewrite Hready.
  - unfold send_whatsapp. unfold_py. by rewrite Hready.
Qed.

Lemma fake_mode_total_witness :
  run boom_world (send_sms "" "" not_ready_state) tt
    = (Normal (<["status" := VStr "fake"]> (<["to" := VStr ""]>
                 (<["message" := VStr ""]>
                    (<["note" := VStr "AT not configured"]> ∅)))),
       not_ready_state, tt, [])
  /\ run boom_world (send_whatsapp "not a phone number" "" not_ready_state) tt
    = (Normal (<["status" := VStr "fake"]> (<["to" := VStr "not a phone number"]>
                 (<["message" := VStr ""]>
                    (<["note" := VStr "WhatsApp test mode"]> ∅)))),
       not_ready_state, tt, []).
Proof.
  assert (H : globals not_ready_state !! "AT_READY" = Some (VBool false))
    by (vm_compute; reflexivity).
  split.
  - apply (fake_mode_total boom_world tt not_ready_state "" "" H).
  - apply (fake_mode_total boom_world tt not_ready_state "not a phone number" "" H).
Defined.

Lemma dom_fake_result (to message note : string) :
  dom (fake_result to message note) = fake_keys.
Proof.
  unfold fake_result, fake_keys. rewrite !dom_insert_L, dom_empty_L. set_solver.
Qed.

Lemma dom_sent_result (provider : string) (response : PyVal) :
  dom (sent_result provider response) = sent_keys.
Proof.
  unfold sent_result, sent_keys. rewrite !dom_insert_L, dom_empty_L. set_solver.
Qed.

Lemma fake_result_well_shaped (to message note : string) :
  well_shaped (fake_result to message note).
Proof.
  split; [by left|]. split; [intros _; apply dom_fake_result | by intros [=]].
Qed.

Lemma sent_result_well_shaped (provider : string) (response : PyVal) :
  well_shaped (sent_result provider response).
Proof.
  split; [by right|]. split; [by intros [=] | intros _; apply dom_sent_result].
Qed.

(** C10. Whatever the namespace and the world, a dict returned by either
    handler has status "fake" or "sent"; with "fake" its keys are exactly
    status, to, message, note, with "sent" exactly status, provider,
    response; the two key sets differ, so the status tells the shape. *)
Theorem result_shape_by_status {W} (o : Oracle W) (w : W) (st : State)
        (h : HandlerCall) (d : PyDict) :
  (run o (call_handler h st) w).1.1.1 = Normal d ->
  well_shaped d /\ fake_keys <> sent_keys.
Proof.
  intros Hrun. split.
  - destruct h as [t m|t m]; simpl in Hrun.
    + unfold send_sms in Hrun. unfold_py_in Hrun.
      destruct (globals st !! "AT_READY") as [v|]; simpl in Hrun; [|done].
      destruct (truthy v); simpl in Hrun.
      * destruct (globals st !! "sms") as [sms|]; simpl in Hrun; [|done].
        destruct (o w _) as [[r|e] w1]; simpl in Hrun; [|done].
        injection Hrun as <-. apply sent_result_well_shaped.
      * injection Hrun as <-. apply fake_result_well_shaped.
    + unfold send_whatsapp in Hrun. unfold_py_in Hrun.
      destruct (globals st !! "AT_READY") as [v|]; simpl in Hrun; [|done].
      destruct (truthy v); simpl in Hrun.
      * destruct (globals st !! "whatsapp") as [wa|]; simpl in Hrun; [|done].
        destruct (o w _) as [[r|e] w1]; simpl in Hrun; [|done].
        injection Hrun as <-. apply sent_result_well_shaped.
      * injection Hrun as <-. apply fake_result_well_shaped.
  - unfold fake_keys, sent_keys. intros Heq.
    assert (Hin : "note" ∈ ({[ "status"; "provider"; "response" ]} : gset string))
      by (rewrite <- Heq; set_solver).
    set_solver.
Qed.

Lemma result_shape_by_status_witness :
  well_shaped (fake_result "+256758969973" "Job alert" "AT not configured")
  /\ well_shaped (sent_result "WhatsApp" (VStr "queued")).
Proof.
  split.
  - apply (result_shape_by_status no_library_world tt not_ready_state
             (SendSms "+256758969973" "Job alert")).
    vm_compute. reflexivity.
  - apply (result_shape_by_status sandbox_world tt ready_state
             (SendWhatsapp "+256758969973" "Job alert")).
    vm_compute. reflexivity.
Defined.

(** ** The ready flag over the life of the process *)

(** Neither handler writes to the namespace, whatever the world answers. *)
Lemma handler_preserves_state {W} (o : Oracle W) (w : W) (st : State) (c : HandlerCall) :
  (run o (call_handler c st) w).1.1.2 = st.
Proof.
  destruct c as [to message|to message]; simpl.
  - unfold send_sms. unfold_py.
    destruct (globals st !! "AT_READY") as [v|]; simpl; [|done].
    destruct (truthy v); simpl; [|done].
    destruct (globals st !! "sms") as [sms|]; simpl; [|done].
    by destruct (o w _) as [[r|e] w1].
  - unfold send_whatsapp. unfold_py.
    destruct (globals st !! "AT_READY") as [v|]; simpl; [|done].
    destruct (truthy v); simpl; [|done].
    destruct (globals st !! "whatsapp") as [wa|]; simpl; [|done].
    by destruct (o w _) as [[r|e] w1].
Qed.

Lemma run_calls_preserves_state {W} (o : Oracle W) (cs : list HandlerCall) :
  forall (st : State) (w : W), (run_calls o cs st w).1.2 = st.
Proof.
  induction cs as [|c cs IH]; intros st w; simpl; [done|].
  pose proof (handler_preserves_state o w st c) as Hc.
  destruct (run o (call_handler c st) w) as [[[r st1] w1] tr]. simpl in Hc. subst st1.
  specialize (IH st w1). by destruct (run_calls o cs st w1) as [[rs st'] w'].
Qed.

(** When start-up completes, the flag is a boolean stored once, true
    exactly when the run of start-up is the six steps of the [try] block,
    each answered by a value. *)
Lemma startup_flag {W} (o : Oracle W) (w : W) :
  (run o (module_init empty_state) w).1.1.1 = Normal tt ->
  exists b,
    globals (startup o w) !! "AT_READY" = Some (VBool b)
    /\ (b = true <->
        exists m u k r s wa,
          startup_trace o w
          = [ (Import "africastalking", AVal m);
              (EnvironGet "AT_USERNAME", AVal u);
              (EnvironGet "AT_API_KEY", AVal k);
              (CallMethod m "initialize"
                 [match u with VNone => VStr "sandbox" | _ => u end; k] [], AVal r);
              (Getattr m "SMS", AVal s);
              (Getattr m "WhatsApp", AVal wa) ])
    /\ count_occ string_dec (stores (startup o w)) "AT_READY" = 1%nat.
Proof.
  run_startup o.
  all: intros Hnormal; try discriminate Hnormal.
  all: eexists; (split; [reflexivity|]); (split; [|reflexivity]).
  all: split; [|try reflexivity; intros (m & u & k & r & s & wa & Htr); discriminate Htr].
  all: try (intros Hb; discriminate Hb).
  intros _.
  match goal with
  | |- context [CallMethod _ "initialize" [_; match ?k with VNone => _ | _ => _ end]] =>
      assert (match k with VNone => VNone | _ => k end = k) as -> by (by destruct k)
  end.
  repeat eexists.
Qed.

(** C7, as stated, fails in one direction: in a world where the import of
    the provider library and its [initialize] succeed but the lookup of
    [africastalking.WhatsApp] raises, start-up completes and the flag is
    false. *)
Lemma ready_flag_false_despite_initialize :
  (run no_whatsapp_world (module_init empty_state) tt).1.1.1 = Normal tt
  /\ import_and_initialize_succeed (startup_trace no_whatsapp_world tt) = true
  /\ globals (startup no_whatsapp_world tt) !! "AT_READY" = Some (VBool false).
Proof. repeat split; vm_compute; reflexivity. Qed.

(** C7, amended.  Whenever start-up completes, [AT_READY] has been stored
    exactly once and is a boolean: true exactly when every step of the
    [try] block returned, that is the import of [africastalking], the two
    environment reads, [africastalking.initialize(username, api_key)] and
    the reads of [africastalking.SMS] and [africastalking.WhatsApp].  After
    any sequence of [send_sms] and [send_whatsapp] calls, against any
    world, the namespace, and with it [AT_READY] and the record of stores,
    is what start-up left. *)
Theorem ready_flag_set_once {W} (o : Oracle W) (w : W) :
  (run o (module_init empty_state) w).1.1.1 = Normal tt ->
  (exists b,
     globals (startup o w) !! "AT_READY" = Some (VBool b)
     /\ (b = true <->
         exists m u k r s wa,
           startup_trace o w
           = [ (Import "africastalking", AVal m);
               (EnvironGet "AT_USERNAME", AVal u);
               (EnvironGet "AT_API_KEY", AVal k);
               (CallMethod m "initialize"
                  [match u with VNone => VStr "sandbox" | _ => u end; k] [], AVal r);
               (Getattr m "SMS", AVal s);
               (Getattr m "WhatsApp", AVal wa) ]))
  /\ count_occ string_dec (stores (startup o w)) "AT_READY" = 1%nat
  /\ (forall (o' : Oracle W) (w' : W) (cs : list HandlerCall),
        (run_calls o' cs (startup o w) w').1.2 = startup o w
        /\ globals (run_calls o' cs (startup o w) w').1.2 !! "AT_READY"
           = globals (startup o w) !! "AT_READY"
        /\ count_occ string_dec (stores (run_calls o' cs (startup o w) w').1.2)
             "AT_READY" = 1%nat).
Proof.
  intros Hnormal.
  destruct (startup_flag o w Hnormal) as (b & Hb & Hiff & Hcount).
  split; [by exists b|]. split; [done|].
  intros o' w' cs. by rewrite run_calls_preserves_state.
Qed.

Lemma ready_flag_set_once_witness :
  (run no_whatsapp_world (module_init empty_state) tt).1.1.1 = Normal tt
  /\ count_occ string_dec (stores (startup no_whatsapp_world tt)) "AT_READY" = 1%nat
  /\ (run_calls boom_world
        [SendSms "+256758969973" "Job alert"; SendWhatsapp "+256758969973" "Job alert"]
        (startup no_whatsapp_world tt) tt).1.2
     = startup no_whatsapp_world tt.
Proof.
  assert (H : (run no_whatsapp_world (module_init empty_state) tt).1.1.1 = Normal tt)
    by (vm_compute; reflexivity).
  split; [exact H|].
  destruct (ready_flag_set_once no_whatsapp_world tt H) as (_ & Hcount & Hcalls).
  split; [exact Hcount|].
  exact (proj1 (Hcalls boom_world tt
                  [SendSms "+256758969973" "Job alert";
                   SendWhatsapp "+256758969973" "Job alert"])).
Defined.

(** ** Requests served in sequence *)

Lemma run_pbind_ret {W A B} (o : Oracle W) (g : A -> B) (p : prog A) :
  forall w : W,
    run o (pbind p (fun r => Ret (g r))) w
    = ((g (run o p w).1.1, (run o p w).1.2), (run o p w).2).
Proof.
  induction p as [a|op k IH]; intros w; simpl; [done|].
  destruct (o w op) as [ans w1]. rewrite IH.
  by destruct (run o (k ans) w1) as [[a w2] tr].
Qed.

Lemma find_route_cases (req : Request) (h : string -> string -> M PyDict) :
  find_route req = Some h -> h = send_sms \/ h = send_whatsapp.
Proof.
  unfold find_route, routes. simpl.
  destruct (_ && _); simpl; [intros [= <-]; by left|].
  destruct (_ && _); simpl; [intros [= <-]; by right|done].
Qed.

(** A request on either route leaves the namespace as it was. *)
Lemma app_preserves_state {W} (o : Oracle W) (w : W) (st : State) (req : Request)
      (p : State -> prog (Response * State)) :
  app req = Some p -> (run o (p st) w).1.1.2 = st.
Proof.
  unfold app. destruct (find_route req) as [h|] eqn:Hroute; simpl; [|done].
  intros [= <-]. unfold endpoint.
  destruct (bind_params req) as [missing|[to message]]; simpl; [done|].
  rewrite run_pbind_ret. simpl.
  destruct (find_route_cases req h Hroute) as [-> | ->].
  - apply (handler_preserves_state o w st (SendSms to message)).
  - apply (handler_preserves_state o w st (SendWhatsapp to message)).
Qed.

Lemma serve_preserves_state {W} (o : Oracle W) (reqs : list Request) :
  forall (st : State) (w : W), (serve o reqs st w).1.2 = st.
Proof.
  induction reqs as [|req reqs IH]; intros st w; simpl; [done|].
  destruct (app req) as [p|] eqn:Happ.
  - pose proof (app_preserves_state o w st req p Happ) as Hp.
    destruct (run o (p st) w) as [[[r st1] w1] tr]. simpl in Hp. subst st1.
    specialize (IH st w1). by destruct (serve o reqs st w1) as [[rs st'] w'].
  - specialize (IH st w). by destruct (serve o reqs st w) as [[rs st'] w'].
Qed.

Lemma serve_app {W} (o : Oracle W) (reqs1 reqs2 : list Request) :
  forall (st : State) (w : W),
    serve o (reqs1 ++ reqs2) st w
    = (((serve o reqs1 st w).1.1
         ++ (serve o reqs2 (serve o reqs1 st w).1.2 (serve o reqs1 st w).2).1.1)%list,
       (serve o reqs2 (serve o reqs1 st w).1.2 (serve o reqs1 st w).2).1.2,
       (serve o reqs2 (serve o reqs1 st w).1.2 (serve o reqs1 st w).2).2).
Proof.
  induction reqs1 as [|req reqs1 IH]; intros st w; simpl.
  - by destruct (serve o reqs2 st w) as [[rs st'] w'].
  - destruct (app req) as [p|].
    + destruct (run o (p st) w) as [[[r st1] w1] tr]. rewrite IH.
      by destruct (serve o reqs1 st1 w1) as [[rs st'] w'].
    + rewrite IH. by destruct (serve o reqs1 st w) as [[rs st'] w'].
Qed.

Lemma run_history_independent {W A} (o : Oracle W) (p : prog A) :
  history_independent o ->
  forall w1 w2 : W,
    (run o p w1).1.1 = (run o p w2).1.1 /\ (run o p w1).2 = (run o p w2).2.
Proof.
  intros Ho. induction p as [a|op k IH]; intros w1 w2; simpl; [done|].
  pose proof (Ho w1 w2 op) as Hans.
  destruct (o w1 op) as [ans1 w1'], (o w2 op) as [ans2 w2']. simpl in Hans. subst ans2.
  destruct (IH ans1 w1' w2') as [Hres Htr].
  destruct (run o (k ans1) w1') as [[a1 u1] tr1], (run o (k ans1) w2') as [[a2 u2] tr2].
  simpl in *. by subst.
Qed.

Lemma serve_history_independent {W} (o : Oracle W) (reqs : list Request) :
  history_independent o ->
  forall (st : State) (w1 w2 : W), (serve o reqs st w1).1.1 = (serve o reqs st w2).1.1.
Proof.
  intros Ho. induction reqs as [|req reqs IH]; intros st w1 w2; simpl; [done|].
  destruct (app req) as [p|] eqn:Happ.
  - pose proof (app_preserves_state o w1 st req p Happ) as Hp1.
    pose proof (app_preserves_state o w2 st req p Happ) as Hp2.
    destruct (run_history_independent o (p st) Ho w1 w2) as [Hres _].
    destruct (run o (p st) w1) as [[[r1 s1] u1] tr1], (run o (p st) w2) as [[[r2 s2] u2] tr2].
    simpl in *. subst s1 s2. injection Hres as ->.
    specialize (IH st u1 u2).
    destruct (serve o reqs st u1) as [[rs1 t1] v1], (serve o reqs st u2) as [[rs2 t2] v2].
    simpl in *. by subst.
  - specialize (IH st w1 w2).
    destruct (serve o reqs st w1) as [[rs1 t1] v1], (serve o reqs st w2) as [[rs2 t2] v2].
    simpl in *. by subst.
Qed.

(** C8. Serving requests changes no state of the relay: after any sequence
    of requests on either route the namespace is the one before.  Hence
    the only thing earlier requests pass on to a later one is the outside
    world, and with a provider whose answers do not depend on its history
    the responses to later requests, on either channel, are those they
    would get if served alone, whether or not an earlier provider call
    failed. *)
Theorem requests_independent {W} (o : Oracle W) (reqs1 reqs2 : list Request)
        (st : State) (w : W) :
  (serve o (reqs1 ++ reqs2) st w).1.2 = st
  /\ (serve o (reqs1 ++ reqs2) st w).1.1
     = ((serve o reqs1 st w).1.1
          ++ (serve o reqs2 st (serve o reqs1 st w).2).1.1)%list
  /\ (history_independent o ->
      (serve o (reqs1 ++ reqs2) st w).1.1
      = ((serve o reqs1 st w).1.1 ++ (serve o reqs2 st w).1.1)%list).
Proof.
  split; [apply serve_preserves_state|].
  rewrite serve_app. simpl. rewrite (serve_preserves_state o reqs1 st w).
  split; [done|]. intros Ho. f_equal. by apply serve_history_independent.
Qed.

Lemma requests_independent_witness :
  history_independent sms_down_world
  /\ (serve sms_down_world ([sms_request] ++ [whatsapp_request]) ready_state tt).1.1
     = ((serve sms_down_world [sms_request] ready_state tt).1.1
          ++ (serve sms_down_world [whatsapp_request] ready_state tt).1.1)%list.
Proof.
  assert (H : history_independent sms_down_world) by (intros [] [] op; reflexivity).
  split; [exact H|].
  destruct (requests_independent sms_down_world [sms_request] [whatsapp_request]
              ready_state tt) as (_ & _ & Hind).
  exact (Hind H).
Defined.

Example sms_failure_then_whatsapp_success :
  (serve sms_down_world [sms_request; whatsapp_request] ready_state tt).1.1
  = [Some (JSONResponse 500 (VDict (<["detail" := VStr "SMS gateway down"]> ∅)));
     Some (JSONResponse 200 (VDict (sent_result "WhatsApp" (VStr "queued"))))].
Proof. vm_compute. reflexivity. Qed.

(** ** Where the request fields are read from *)

Example route_sms (q : list (string * string)) (b : option PyVal) :
  find_route (mkRequest "POST" "/notify/sms" q b) = Some send_sms.
Proof. reflexivity. Qed.

Example route_trailing_newline (q : list (string * string)) (b : option PyVal) :
  find_route (mkRequest "POST" ("/notify/sms" ++ String (Ascii.ascii_of_nat 10) "") q b)
  = Some send_sms
  /\ find_route (mkRequest "POST" "/notify/sms/" q b) = None
  /\ find_route (mkRequest "GET" "/notify/sms" q b) = None.
Proof. repeat split. Qed.

Example route_whatsapp (q : list (string * string)) (b : option PyVal) :
  find_route (mkRequest "POST" "/notify/whatsapp" q b) = Some send_whatsapp.
Proof. reflexivity. Qed.

(** C3, as stated, fails on both counts.  A request whose JSON body is a
    well-formed SendRequest and whose query string is empty is rejected
    with 422, both parameters reported missing; and a request without any
    body, its fields in the query string, is accepted: it is answered with
    200 after a call of the provider's [send]. *)
Lemma json_body_contract_refuted :
  (find_route body_request = Some send_sms
   /\ SendRequest_of_json (json body_request) = Some ("+256758969973", "Job alert")
   /\ run sandbox_world (endpoint send_sms body_request not_ready_state) tt
      = (RequestValidationError ["to"; "message"], not_ready_state, tt, []))
  /\ (find_route sms_request = Some send_sms
      /\ SendRequest_of_json (json sms_request) = None
      /\ status_of (run sandbox_world (endpoint send_sms sms_request ready_state) tt).1.1.1
         = 200
      /\ map fst (run sandbox_world (endpoint send_sms sms_request ready_state) tt).2
         = [CallMethod (VObj "SMS") "send"
              [VStr "Job alert"; VList [VStr "+256758969973"]] []]).
Proof.
  split; [split; [reflexivity | split; vm_compute; reflexivity]|].
  split; [reflexivity|]. split; [reflexivity|].
  split; vm_compute; reflexivity.
Qed.

(** C3, amended.  On both routes [to] and [message] are read from the query
    string (where every value is a string) and the JSON body is not read.  A
    request whose query string lacks [to] or [message] is answered with a
    request-validation error, status 422, before the handler runs: the run
    holds no event, so no provider call is made.  A request that has both
    runs the handler on exactly those two values. *)
Theorem query_parameters_required {W} (o : Oracle W) (w : W) (st : State)
        (req : Request) (h : string -> string -> M PyDict) :
  find_route req = Some h ->
  app req = Some (endpoint h req)
  /\ (query_get "to" (query req) = None \/ query_get "message" (query req) = None ->
      exists missing,
        run o (endpoint h req st) w = (RequestValidationError missing, st, w, [])
        /\ status_of (RequestValidationError missing) = 422)
  /\ (forall to message,
        query_get "to" (query req) = Some to ->
        query_get "message" (query req) = Some message ->
        endpoint h req st = pbind (h to message st) (fun r => Ret (respond r.1, r.2)))
  /\ (forall body,
        endpoint h (mkRequest (method req) (path req) (query req) body) st
        = endpoint h req st).
Proof.
  intros Hroute. split; [unfold app; by rewrite Hroute|].
  split; [|split].
  - intros Hmissing. unfold endpoint, bind_params.
    destruct (query_get "to" (query req)) as [to|],
             (query_get "message" (query req)) as [message|];
      simpl; try (by eexists); by destruct Hmissing.
  - intros to message Hto Hmessage. unfold endpoint, bind_params.
    by rewrite Hto, Hmessage.
  - intros body. reflexivity.
Qed.

Lemma query_parameters_required_witness :
  find_route body_request = Some send_sms
  /\ exists missing,
       run boom_world (endpoint send_sms body_request ready_state) tt
       = (RequestValidationError missing, ready_state, tt, [])
       /\ status_of (RequestValidationError missing) = 422.
Proof.
  assert (H : find_route body_request = Some send_sms) by reflexivity.
  split; [exact H|].
  destruct (query_parameters_required boom_world tt ready_state body_request send_sms H)
    as (_ & Hmissing & _).
  apply Hmissing. left. reflexivity.
Defined.


(** ** Start-up in detail *)

(** X1. Start-up never lets a failure of the provider escape and never
    sends: in every world it makes at most seven events, none a call of
    [send], and it either completes normally or raises what
    [logging.warning] raised while reporting an earlier failure [e]; so it
    completes normally whenever [logging.warning] returns. *)
Theorem startup_raises_only_from_logging {W} (o : Oracle W) (w : W) :
  (length (startup_trace o w) <= 7)%nat
  /\ forallb (fun ev => negb (is_send_call ev.1)) (startup_trace o w) = true
  /\ match (run o (module_init empty_state) w).1.1.1 with
     | Normal _ => forallb log_returned (startup_trace o w) = true
     | Raised e' =>
         exists e,
           first_raise (startup_trace o w) = Some e
           /\ last (startup_trace o w)
              = Some (LogWarning ("Africa's Talking not available: " ++ str e),
                      ARaise e')
     end
  /\ (forallb log_returned (startup_trace o w) = true ->
      (run o (module_init empty_state) w).1.1.1 = Normal tt).
Proof.
  run_startup o.
  all: split; [simpl; lia|]; split; [reflexivity|]; split.
  all: try reflexivity; try (eexists; split; reflexivity).
  all: intros Hlog; discriminate Hlog.
Qed.

Example startup_with_broken_logging :
  (run broken_logging_world (module_init empty_state) tt).1.1.1
  = Raised (Exc "OSError" "log stream closed")
  /\ globals (startup broken_logging_world tt) !! "AT_READY" = None.
Proof. split; vm_compute; reflexivity. Qed.

(** The run of start-up when no step raises. *)
Lemma startup_success_state {W} (o : Oracle W) (w : W) :
  forallb is_value (startup_trace o w) = true ->
  exists m u k r s wa,
    startup_trace o w
    = [ (Import "africastalking", AVal m);
        (EnvironGet "AT_USERNAME", AVal u);
        (EnvironGet "AT_API_KEY", AVal k);
        (CallMethod m "initialize"
           [match u with VNone => VStr "sandbox" | _ => u end; k] [], AVal r);
        (Getattr m "SMS", AVal s);
        (Getattr m "WhatsApp", AVal wa) ]
    /\ globals (startup o w)
       = <["AT_READY" := VBool true]> (<["whatsapp" := wa]> (<["sms" := s]>
           (<["AT_API_KEY" := k]>
              (<["AT_USERNAME" := match u with VNone => VStr "sandbox" | _ => u end]>
                 (<["africastalking" := m]> ∅))))).
Proof.
  run_startup o.
  all: unfold is_value; simpl; intros Hall; try discriminate.
  match goal with
  | |- context [CallMethod _ "initialize" [_; match ?k with VNone => _ | _ => _ end]] =>
      assert (match k with VNone => VNone | _ => k end = k) as -> by (by destruct k)
  end.
  repeat eexists.
Qed.

(** X2. When no start-up step raises, start-up is exactly: the import, the
    two environment reads, [initialize(username, api_key)] with "sandbox"
    for an unset user name and the API key as the environment has it
    ([None] when unset, without any check of it), and the two attribute
    reads, whose values become [sms] and [whatsapp]; [AT_READY] is true. *)
Theorem startup_success_path {W} (o : Oracle W) (w : W) :
  forallb is_value (startup_trace o w) = true ->
  exists m u k r s wa,
    startup_trace o w
    = [ (Import "africastalking", AVal m);
        (EnvironGet "AT_USERNAME", AVal u);
        (EnvironGet "AT_API_KEY", AVal k);
        (CallMethod m "initialize"
           [match u with VNone => VStr "sandbox" | _ => u end; k] [], AVal r);
        (Getattr m "SMS", AVal s);
        (Getattr m "WhatsApp", AVal wa) ]
    /\ globals (startup o w) !! "AT_READY" = Some (VBool true)
    /\ globals (startup o w) !! "sms" = Some s
    /\ globals (startup o w) !! "whatsapp" = Some wa
    /\ globals (startup o w) !! "AT_API_KEY" = Some k
    /\ globals (startup o w) !! "AT_USERNAME"
       = Some (match u with VNone => VStr "sandbox" | _ => u end).
Proof.
  intros Hall.
  destruct (startup_success_state o w Hall) as (m & u & k & r & s & wa & Htr & Hg).
  exists m, u, k, r, s, wa. rewrite Hg. split; [exact Htr|]. repeat split.
Qed.

Lemma startup_success_path_witness :
  forallb is_value (startup_trace sandbox_world tt) = true
  /\ exists m u k r s wa,
       startup_trace sandbox_world tt
       = [ (Import "africastalking", AVal m);
           (EnvironGet "AT_USERNAME", AVal u);
           (EnvironGet "AT_API_KEY", AVal k);
           (CallMethod m "initialize"
              [match u with VNone => VStr "sandbox" | _ => u end; k] [], AVal r);
           (Getattr m "SMS", AVal s);
           (Getattr m "WhatsApp", AVal wa) ]
       /\ globals (startup sandbox_world tt) !! "AT_READY" = Some (VBool true)
       /\ globals (startup sandbox_world tt) !! "sms" = Some s
       /\ globals (startup sandbox_world tt) !! "whatsapp" = Some wa
       /\ globals (startup sandbox_world tt) !! "AT_API_KEY" = Some k
       /\ globals (startup sandbox_world tt) !! "AT_USERNAME"
          = Some (match u with VNone => VStr "sandbox" | _ => u end).
Proof.
  assert (H : forallb is_value (startup_trace sandbox_world tt) = true)
    by (vm_compute; reflexivity).
  split; [exact H | exact (startup_success_path sandbox_world tt H)].
Defined.

Example sandbox_defaults :
  globals (startup sandbox_world tt) !! "AT_USERNAME" = Some (VStr "sandbox")
  /\ globals (startup sandbox_world tt) !! "AT_API_KEY" = Some VNone
  /\ globals (startup sandbox_world tt) !! "AT_READY" = Some (VBool true).
Proof. repeat split; vm_compute; reflexivity. Qed.

(** X3. Start-up reports a failure once.  If the first exception raised is
    [e], [logging.warning] is called once, with "Africa's Talking not
    available: " followed by [str(e)], and [whatsapp] is left unbound;
    then [AT_READY] is false if that call returned, and is left unbound if
    it raised.  If nothing is raised, nothing is logged, start-up completes
    and the flag is true. *)
Theorem startup_failure_logged {W} (o : Oracle W) (w : W) :
  match first_raise (startup_trace o w) with
  | Some e =>
      logged_warnings (startup_trace o w)
      = ["Africa's Talking not available: " ++ str e]
      /\ globals (startup o w) !! "whatsapp" = None
      /\ match (run o (module_init empty_state) w).1.1.1 with
         | Normal _ => globals (startup o w) !! "AT_READY" = Some (VBool false)
         | Raised _ => globals (startup o w) !! "AT_READY" = None
         end
  | None =>
      logged_warnings (startup_trace o w) = []
      /\ (run o (module_init empty_state) w).1.1.1 = Normal tt
      /\ globals (startup o w) !! "AT_READY" = Some (VBool true)
  end.
Proof.
  run_startup o.
  all: repeat split.
Qed.

(** X4. After a start-up in which nothing raised, the SMS handler sends on
    the object start-up read from [africastalking.SMS] and the WhatsApp
    handler on the one read from [africastalking.WhatsApp]. *)
Theorem channels_use_their_service {W} (o0 o : Oracle W) (w0 w : W)
        (to message : string) :
  forallb is_value (startup_trace o0 w0) = true ->
  exists m s wa,
    In (Getattr m "SMS", AVal s) (startup_trace o0 w0)
    /\ In (Getattr m "WhatsApp", AVal wa) (startup_trace o0 w0)
    /\ map fst (run o (send_sms to message (startup o0 w0)) w).2
       = [CallMethod s "send" [VStr message; VList [VStr to]] []]
    /\ map fst (run o (send_whatsapp to message (startup o0 w0)) w).2
       = [CallMethod wa "send" []
            [("message", VStr message); ("recipients", VList [VStr to])]].
Proof.
  intros Hall.
  destruct (startup_success_state o0 w0 Hall) as (m & u & k & r & s & wa & Htr & Hg).
  exists m, s, wa. rewrite Htr.
  split; [simpl; tauto|]. split; [simpl; tauto|].
  assert (Hr : globals (startup o0 w0) !! "AT_READY" = Some (VBool true))
    by (by rewrite Hg).
  assert (Hs : globals (startup o0 w0) !! "sms" = Some s) by (by rewrite Hg).
  assert (Hw : globals (startup o0 w0) !! "whatsapp" = Some wa) by (by rewrite Hg).
  rewrite (run_send_sms_ready o w _ to message s Hr Hs).
  by rewrite (run_send_whatsapp_ready o w _ to message wa Hr Hw).
Qed.

Lemma channels_use_their_service_witness :
  exists m s wa,
    In (Getattr m "SMS", AVal s) (startup_trace sandbox_world tt)
    /\ In (Getattr m "WhatsApp", AVal wa) (startup_trace sandbox_world tt)
    /\ map fst (run boom_world
                  (send_sms "+256758969973" "Job alert" (startup sandbox_world tt)) tt).2
       = [CallMethod s "send" [VStr "Job alert"; VList [VStr "+256758969973"]] []]
    /\ map fst (run boom_world
                  (send_whatsapp "+256758969973" "Job alert"
                     (startup sandbox_world tt)) tt).2
       = [CallMethod wa "send" []
            [("message", VStr "Job alert");
             ("recipients", VList [VStr "+256758969973"])]].
Proof.
  apply (channels_use_their_service sandbox_world boom_world tt tt).
  vm_compute. reflexivity.
Defined.

(** ** The test helpers *)

Lemma route_matches_wanted (path method : string) (route : Tests.Route) :
  Tests.route_matches path method route = true <-> Tests.wanted path method route.
Proof.
  unfold Tests.route_matches, Tests.wanted.
  destruct (Tests.route_path route) as [p|], (Tests.route_methods route) as [ms|];
    try (split; [done | by intros [? (ms' & ? & ?)]]).
  rewrite !andb_true_iff, String.eqb_eq, existsb_exists. split.
  - intros [[-> _] (m & Hin & Hm)]. apply String.eqb_eq in Hm as ->.
    split; [done|]. by exists ms.
  - intros [[= ->] (ms' & [= <-] & Hin)]. split; [split; [done|]|].
    + by destruct ms.
    + exists method. split; [done | apply String.eqb_refl].
Qed.

(** X8. [find_route] of the tests returns the first route of the list whose
    path is the given one and whose methods contain the given method; it
    returns [None] exactly when the list has no such route.  A route object
    without [path] or without [methods] is never returned. *)
Theorem test_find_route_first_match (routes : list Tests.Route) (path method : string) :
  match Tests.find_route routes path method with
  | Some route =>
      Tests.wanted path method route
      /\ exists before after,
           routes = (before ++ route :: after)%list
           /\ forall r, In r before -> ~ Tests.wanted path method r
  | None => forall r, In r routes -> ~ Tests.wanted path method r
  end.
Proof.
  induction routes as [|r0 routes IH]; simpl; [by intros r []|].
  destruct (Tests.route_matches path method r0) eqn:Hmatch.
  - split; [by apply route_matches_wanted|].
    exists [], routes. split; [done | by intros r []].
  - assert (Hno : ~ Tests.wanted path method r0).
    { intros Hw. apply route_matches_wanted in Hw. congruence. }
    destruct (Tests.find_route routes path method) as [route|].
    + destruct IH as (Hw & before & after & -> & Hbefore).
      split; [done|]. exists (r0 :: before), after. split; [done|].
      intros r [<- | Hin]; [done | by apply Hbefore].
    + intros r [<- | Hin]; [done | by apply IH].
Qed.

(** A wanted route at the end of the list is found, whatever precedes it. *)
Lemma find_route_after (others rest : list Tests.Route) (path method : string) :
  is_Some (Tests.find_route rest path method) ->
  is_Some (Tests.find_route (others ++ rest) path method).
Proof.
  intros Hrest. induction others as [|r0 others IH]; simpl; [done|].
  by destruct (Tests.route_matches path method r0).
Qed.

(** X9. A JSON body never reaches a handler.  On either route, whatever
    the namespace, the world and the payload, the test client's POST of a
    JSON body (or of nothing) is answered 422 with both parameters
    missing.  So, with any routes of the framework listed before the
    module's two, both routes are found, the two accept-or-validate tests
    and the two 422 tests pass, and the two send-exception tests are
    skipped, with or without the patched [send]. *)
Theorem json_posts_never_reach_handlers {W} (o : Oracle W) (w : W) (st : State)
        (payload : PyVal) (path : string) (others : list Tests.Route) :
  path = "/notify/sms" \/ path = "/notify/whatsapp" ->
  Tests.client_post o st w (Tests.safe_post path payload)
    = Some (RequestValidationError ["to"; "message"])
  /\ Tests.client_post o st w (Tests.post_nothing path)
    = Some (RequestValidationError ["to"; "message"])
  /\ is_Some (Tests.find_route (others ++ Tests.module_routes) path "POST")
  /\ Tests.accepts_or_validates
       (Tests.find_route (others ++ Tests.module_routes) path "POST")
       (Tests.client_post o st w (Tests.safe_post path Tests.DEFAULT_PAYLOAD))
     = Tests.Passed
  /\ Tests.handles_send_exception
       (Tests.find_route (others ++ Tests.module_routes) path "POST")
       (Tests.client_post o (Tests.patched st) w
          (Tests.safe_post path Tests.DEFAULT_PAYLOAD))
     = Tests.Skipped
  /\ Tests.both_422
       (Tests.client_post o st w (Tests.post_nothing "/notify/sms"))
       (Tests.client_post o st w (Tests.post_nothing "/notify/whatsapp"))
     = Tests.Passed
  /\ Tests.both_422
       (Tests.client_post o st w (Tests.safe_post "/notify/sms" Tests.non_string_payload))
       (Tests.client_post o st w
          (Tests.safe_post "/notify/whatsapp" Tests.non_string_payload))
     = Tests.Passed.
Proof.
  intros Hpath.
  assert (Hfound : is_Some (Tests.find_route (others ++ Tests.module_routes) path "POST")).
  { apply find_route_after. by destruct Hpath as [-> | ->]; eexists. }
  destruct Hfound as [route Hroute]. rewrite Hroute.
  destruct Hpath as [-> | ->]; repeat split; by eexists.
Qed.

Lemma json_posts_never_reach_handlers_witness :
  Tests.client_post boom_world ready_state tt
    (Tests.safe_post "/notify/sms" Tests.DEFAULT_PAYLOAD)
  = Some (RequestValidationError ["to"; "message"]).
Proof.
  apply (json_posts_never_reach_handlers boom_world tt ready_state
           Tests.DEFAULT_PAYLOAD "/notify/sms" []).
  left. reflexivity.
Defined.
